(** * meds.schema: the Medical Event Data Standard schema module

    A shallow embedding of [src/meds/schema.py]: the [BirthCode] class and the
    two sentinel codes, the pyarrow schemas for patients and labels, the JSON
    Schema for dataset metadata and the [TypedDict] declarations that mirror
    them, together with the fragment of Python's object model the module's
    behaviour rests on (hashing, set membership and the [==] protocol). *)

From Stdlib Require Import ZArith.
From stdpp Require Import base decidable option list strings gmap.

Local Open Scope string_scope.
Set Warnings "-register-all".

(** ** Python objects

    The operands that reach the module's comparisons.  Containers hold
    atoms (None, booleans, integers, strings): this keeps built-in
    equality structural, with no need for object identity. *)

Inductive atom :=
  | ANone
  | ABool (b : bool)
  | AInt (n : Z)
  | AStr (s : string).

Inductive value :=
  | VAtom (a : atom)
  | VTuple (items : list atom)
  | VFrozenSet (items : list atom)
  | VList (items : list atom)
  | VSet (items : list atom)
  | VDict (items : list (atom * atom))
  | VBirthCode (codes : gset string).   (* an instance of class BirthCode *)

Abbreviation VStr s := (VAtom (AStr s)).
Abbreviation VInt n := (VAtom (AInt n)).
Abbreviation VBool b := (VAtom (ABool b)).
Abbreviation VNone := (VAtom ANone).

Inductive exn :=
  | TypeError | UnboundLocalError | NameError | AttributeError | ValueError.

Inductive result (A : Type) :=
  | Ok (a : A)
  | Raise (e : exn).
Arguments Ok {A} a.
Arguments Raise {A} e.

Definition result_map {A B} (f : A → B) (r : result A) : result B :=
  match r with
  | Ok a => Ok (f a)
  | Raise e => Raise e
  end.

(** [hash(v)] succeeds.  list, set and dict set [__hash__] to None; a class
    that defines [__eq__] and no [__hash__], as BirthCode does, gets
    [__hash__ = None] too.  A tuple of atoms hashes. *)
Definition hashable (v : value) : bool :=
  match v with
  | VAtom _ | VTuple _ | VFrozenSet _ => true
  | VList _ | VSet _ | VDict _ | VBirthCode _ => false
  end.

Definition is_set (v : value) : bool :=
  match v with
  | VSet _ => true
  | _ => false
  end.

(** [key in s] for a set [s] of strings ([set.__contains__]).  The key is
    hashed first, which raises TypeError for an unhashable key; when that
    key is itself a set, the lookup is retried with [frozenset(key)].  A
    hashable key that is not a string equals no element of [s]. *)
Definition set_contains (s : gset string) (key : value) : result bool :=
  if hashable key then
    match key with
    | VStr c => Ok (bool_decide (c ∈ s))
    | _ => Ok false
    end
  else if is_set key then Ok false   (* frozenset(key) is not a string *)
  else Raise TypeError.

(** ** class BirthCode *)

Module BirthCode.

(** [__init__(self, *codes)]: [self.codes = set(codes)].  The class
    takes any hashable codes; the module only ever passes strings, and the
    embedding covers string codes only. *)
Definition __init__ (codes : list string) : value :=
  VBirthCode (list_to_set codes).

Definition codes (self : value) : gset string :=
  match self with
  | VBirthCode cs => cs
  | _ => ∅
  end.

(** [__eq__(self, other)]: [return other in self.codes]. *)
Definition __eq__ (self other : value) : result bool :=
  set_contains (codes self) other.

End BirthCode.

Definition birth_code : value :=
  BirthCode.__init__ ["SNOMED/184099003"; "SNOMED/3950001"].

Definition death_code : value := VStr "SNOMED/419620001".

(** ** The [==] operator

    Built-in equality on atoms: None equals only None, booleans compare as
    the integers 0 and 1, strings compare by content. *)

Definition atom_int (a : atom) : option Z :=
  match a with
  | ABool b => Some (if b then 1 else 0)%Z
  | AInt n => Some n
  | _ => None
  end.

Definition atom_eq (a b : atom) : bool :=
  match a, b with
  | ANone, ANone => true
  | AStr s, AStr t => bool_decide (s = t)
  | _, _ =>
      match atom_int a, atom_int b with
      | Some m, Some n => bool_decide (m = n)
      | _, _ => false
      end
  end.

(** The operand is of the receiver's own kind: None with None, str with
    str, and int with int, where a bool is an int. *)
Definition same_kind (a b : atom) : bool :=
  match a, b with
  | ANone, ANone => true
  | AStr _, AStr _ => true
  | (ABool _ | AInt _), (ABool _ | AInt _) => true
  | _, _ => false
  end.

Fixpoint seq_eq (xs ys : list atom) : bool :=
  match xs, ys with
  | [], [] => true
  | x :: xs', y :: ys' => atom_eq x y && seq_eq xs' ys'
  | _, _ => false
  end.

Definition set_incl (xs ys : list atom) : bool :=
  forallb (λ x, existsb (atom_eq x) ys) xs.

Definition set_eq (xs ys : list atom) : bool :=
  set_incl xs ys && set_incl ys xs.

(** A dict display keeps the last binding of a repeated key. *)
Definition dict_get (kvs : list (atom * atom)) (k : atom) : option atom :=
  fold_left (λ acc kv, if atom_eq kv.1 k then Some kv.2 else acc) kvs None.

Definition dict_incl (xs ys : list (atom * atom)) : bool :=
  forallb (λ kv,
    match dict_get xs kv.1, dict_get ys kv.1 with
    | Some v, Some w => atom_eq v w
    | _, _ => false
    end) xs.

Definition dict_eq (xs ys : list (atom * atom)) : bool :=
  dict_incl xs ys && dict_incl ys xs.

(** [type(a).__eq__(a, b)]; [Ok None] stands for NotImplemented.  Every
    built-in type answers only for an operand of its own kind; BirthCode
    answers for every operand, through its own [__eq__]. *)
Definition dunder_eq (a b : value) : result (option bool) :=
  match a with
  | VBirthCode _ => result_map Some (BirthCode.__eq__ a b)
  | VAtom x =>
      match b with
      | VAtom y => Ok (if same_kind x y then Some (atom_eq x y) else None)
      | _ => Ok None
      end
  | VTuple xs => match b with VTuple ys => Ok (Some (seq_eq xs ys)) | _ => Ok None end
  | VList xs => match b with VList ys => Ok (Some (seq_eq xs ys)) | _ => Ok None end
  | VFrozenSet xs | VSet xs =>
      match b with
      | VFrozenSet ys | VSet ys => Ok (Some (set_eq xs ys))
      | _ => Ok None
      end
  | VDict xs => match b with VDict ys => Ok (Some (dict_eq xs ys)) | _ => Ok None end
  end.

(** [a == b]: the left operand's [__eq__] is asked first; on NotImplemented
    the right operand's reflected [__eq__] is asked; when both decline the
    comparison falls back to identity, and two objects whose types decline
    each other are not the same object.  (The rule that lets a right operand
    of a proper subclass go first changes nothing here: bool inherits int's
    [__eq__].) *)
Definition py_eq (a b : value) : result bool :=
  match dunder_eq a b with
  | Raise e => Raise e
  | Ok (Some r) => Ok r
  | Ok None =>
      match dunder_eq b a with
      | Raise e => Raise e
      | Ok (Some r) => Ok r
      | Ok None => Ok false
      end
  end.

(** ** pyarrow

    The part of pyarrow's type system the module builds its schemas from.
    [pa.struct] and [pa.schema] take (name, type) pairs and turn each into
    a field, which pyarrow makes nullable unless told otherwise. *)

Module pa.

Inductive TimeUnit := unit_s | unit_ms | unit_us | unit_ns.

Inductive DataType :=
  | null
  | string
  | float32
  | int64
  | bool_
  | timestamp (unit : TimeUnit)
  | list_ (value_type : DataType)
  | StructType (fields : list Field)
with Field :=
  | field (name : String.string) (type : DataType) (nullable : bool).

Record Schema := { schema_fields : list Field }.

Definition name (f : Field) : String.string :=
  match f with field n _ _ => n end.

Definition type (f : Field) : DataType :=
  match f with field _ t _ => t end.

Definition nullable (f : Field) : bool :=
  match f with field _ _ b => b end.

Definition of_pair (p : String.string * DataType) : Field :=
  field p.1 p.2 true.

Definition struct (fields : list (String.string * DataType)) : DataType :=
  StructType (of_pair <$> fields).

Definition schema (fields : list (String.string * DataType)) : Schema :=
  {| schema_fields := of_pair <$> fields |}.

(** The fields of a struct type; other types have none. *)
Definition struct_fields (t : DataType) : list Field :=
  match t with
  | StructType fs => fs
  | _ => []
  end.

(** [t.value_type] of a list type. *)
Definition value_type (t : DataType) : option DataType :=
  match t with
  | list_ v => Some v
  | _ => None
  end.

(** Lookup of a field by name, as [schema.field(name)] does. *)
Definition get_field (fs : list Field) (n : String.string) : option Field :=
  find (λ f, bool_decide (name f = n)) fs.

End pa.

(** ** The patient schema *)

Definition patient_schema (arg : option pa.DataType) : pa.Schema :=
  let per_event_metadata_schema := default pa.null arg in
  let measurement :=
    pa.struct
      [ ("code", pa.string);
        ("text_value", pa.string);
        ("numeric_value", pa.float32);
        ("datetime_value", pa.timestamp pa.unit_us);
        ("metadata", per_event_metadata_schema) ] in
  let event :=
    pa.struct
      [ ("time", pa.timestamp pa.unit_us);
        ("measurements", pa.list_ measurement) ] in
  let patient :=
    pa.schema
      [ ("patient_id", pa.int64);
        ("static_measurements", pa.list_ measurement);
        ("events", pa.list_ event) ] in
  patient.

(** ** The label schema *)

Definition label : pa.Schema :=
  pa.schema
    [ ("patient_id", pa.int64);
      ("prediction_time", pa.timestamp pa.unit_us);
      ("boolean_value", pa.bool_) ].

(** Navigation from a patient schema to the structs nested in it. *)

Definition list_item_of (fs : list pa.Field) (n : string) : option pa.DataType :=
  f ← pa.get_field fs n; pa.value_type (pa.type f).

(** The Measurement struct: the item type of [static_measurements]. *)
Definition static_measurement_type (s : pa.Schema) : option pa.DataType :=
  list_item_of (pa.schema_fields s) "static_measurements".

(** The Event struct: the item type of [events]. *)
Definition event_type (s : pa.Schema) : option pa.DataType :=
  list_item_of (pa.schema_fields s) "events".

(** The Measurement struct again, reached through an event's
    [measurements]. *)
Definition event_measurement_type (s : pa.Schema) : option pa.DataType :=
  e ← event_type s; list_item_of (pa.struct_fields e) "measurements".

Definition field_type (t : pa.DataType) (n : string) : option pa.DataType :=
  pa.type <$> pa.get_field (pa.struct_fields t) n.

(** ** TypedDict declarations

    A type hint as the declarations use them, and a TypedDict as its name
    and its annotated keys.  Declarations are total: a key is required
    unless its annotation is wrapped in [NotRequired]. *)

Module typing.

Inductive hint :=
  | str
  | int
  | float
  | bool
  | datetime                      (* datetime.datetime *)
  | Any
  | List (item : hint)
  | Mapping (key item : hint)
  | Named (name : string)        (* a TypedDict declared in this module *)
  | NotRequired (h : hint).

Record typed_dict := TypedDict {
  td_name : string;
  td_fields : list (string * hint)
}.

Definition is_not_required (h : hint) : Datatypes.bool :=
  match h with
  | NotRequired _ => true
  | _ => false
  end.

Definition field_names (d : typed_dict) : list string := (td_fields d).*1.

(** [d.__optional_keys__] and [d.__required_keys__]. *)
Definition optional_keys (d : typed_dict) : list string :=
  (filter (λ kv, is_not_required kv.2 = true) (td_fields d)).*1.

Definition required_keys (d : typed_dict) : list string :=
  (filter (λ kv, is_not_required kv.2 = false) (td_fields d)).*1.

End typing.

Definition Measurement : typing.typed_dict :=
  typing.TypedDict "Measurement"
    [ ("code", typing.str);
      ("text_value", typing.NotRequired typing.str);
      ("numeric_value", typing.NotRequired typing.float);
      ("datetime_value", typing.NotRequired typing.datetime);
      ("metadata", typing.NotRequired typing.Any) ].

Definition Event : typing.typed_dict :=
  typing.TypedDict "Event"
    [ ("time", typing.datetime);
      ("measurements", typing.List (typing.Named "Measurement")) ].

Definition Patient : typing.typed_dict :=
  typing.TypedDict "Patient"
    [ ("patient_id", typing.int);
      ("static_measurements", typing.List (typing.Named "Measurement"));
      ("events", typing.List (typing.Named "Event")) ].

Definition Label : typing.typed_dict :=
  typing.TypedDict "Label"
    [ ("patient_id", typing.int);
      ("prediction_time", typing.datetime);
      ("boolean_value", typing.bool) ].

Definition CodeMetadataEntry : typing.typed_dict :=
  typing.TypedDict "CodeMetadataEntry"
    [ ("description", typing.str); ("parent_codes", typing.List typing.str) ].

Definition CodeMetadata : typing.hint :=
  typing.Mapping typing.str (typing.Named "CodeMetadataEntry").

Definition DatasetMetadata : typing.typed_dict :=
  typing.TypedDict "DatasetMetadata"
    [ ("dataset_name", typing.NotRequired typing.str);
      ("dataset_version", typing.NotRequired typing.str);
      ("etl_name", typing.NotRequired typing.str);
      ("etl_version", typing.NotRequired typing.str);
      ("code_metadata", typing.NotRequired CodeMetadata) ].

(** ** The dataset metadata schema

    The three JSON Schemas are dict displays with string keys; [json] holds
    them, and the documents they describe, with members in display order. *)

Inductive json :=
  | JNull
  | JBool (b : bool)
  | JNum (n : Z)
  | JStr (s : string)
  | JArr (items : list json)
  | JObj (members : list (string * json)).

Definition code_metadata_entry : json :=
  JObj
    [ ("type", JStr "object");
      ("properties",
        JObj
          [ ("description", JObj [ ("type", JStr "string") ]);
            ("parent_codes",
              JObj [ ("type", JStr "array");
                     ("items", JObj [ ("type", JStr "string") ]) ]) ]) ].

Definition code_metadata : json :=
  JObj
    [ ("type", JStr "object");
      ("additionalProperties", code_metadata_entry) ].

Definition dataset_metadata : json :=
  JObj
    [ ("type", JStr "object");
      ("properties",
        JObj
          [ ("dataset_name", JObj [ ("type", JStr "string") ]);
            ("dataset_version", JObj [ ("type", JStr "string") ]);
            ("etl_name", JObj [ ("type", JStr "string") ]);
            ("etl_version", JObj [ ("type", JStr "string") ]);
            ("code_metadata", code_metadata) ]) ].

(** [d.get(k)] on the members of an object. *)
Definition obj_get (members : list (string * json)) (k : string) : option json :=
  snd <$> find (λ kv, bool_decide (kv.1 = k)) members.

(** The value of keyword [k] in a schema. *)
Definition keyword (schema : json) (k : string) : option json :=
  match schema with
  | JObj kw => obj_get kw k
  | _ => None
  end.

Definition members_of (j : json) : list (string * json) :=
  match j with
  | JObj ms => ms
  | _ => []
  end.

Definition strings_of (j : json) : list string :=
  match j with
  | JArr xs => omap (λ x, match x with JStr s => Some s | _ => None end) xs
  | _ => []
  end.

(** The [required] list of a schema; empty when the keyword is absent. *)
Definition json_required (schema : json) : list string :=
  from_option strings_of [] (keyword schema "required").

(** The names a schema declares under [properties]. *)
Definition json_properties (schema : json) : list string :=
  (from_option members_of [] (keyword schema "properties")).*1.

(** ** Validation against a JSON Schema

    The module only declares the schemas; documents are checked against
    them by a JSON Schema validator.  [validate] follows the JSON Schema
    rules for the keywords the three schemas use, and for [required]:
    - [type] constrains the kind of the instance;
    - [required] lists keys an object instance must have;
    - [properties] gives the schema for the value under a named key, and
      [additionalProperties] the schema for values under all other keys;
      a key that neither covers is unconstrained;
    - [items] gives the schema for every item of an array instance.
    A keyword that does not apply to the kind of the instance is ignored.
    A schema that is neither an object nor a boolean accepts nothing. *)

Definition has_type (t : string) (inst : json) : bool :=
  match inst with
  | JNull => bool_decide (t = "null")
  | JBool _ => bool_decide (t = "boolean")
  | JNum _ => bool_decide (t = "integer") || bool_decide (t = "number")
  | JStr _ => bool_decide (t = "string")
  | JArr _ => bool_decide (t = "array")
  | JObj _ => bool_decide (t = "object")
  end.

Definition type_ok (schema inst : json) : bool :=
  match keyword schema "type" with
  | Some (JStr t) => has_type t inst
  | Some (JArr ts) => existsb (λ t, has_type t inst) (strings_of (JArr ts))
  | Some _ => false
  | None => true
  end.

Definition required_ok (schema : json) (members : list (string * json)) : bool :=
  forallb (λ k, bool_decide (k ∈ members.*1)) (json_required schema).

(** The schema that applies to the value under key [k] of an object. *)
Definition member_schema (schema : json) (k : string) : option json :=
  match obj_get (from_option members_of [] (keyword schema "properties")) k with
  | Some sub => Some sub
  | None => keyword schema "additionalProperties"
  end.

Fixpoint validate (schema inst : json) {struct inst} : bool :=
  match schema with
  | JBool b => b
  | JObj _ =>
      type_ok schema inst &&
      match inst with
      | JObj members =>
          required_ok schema members &&
          forallb (λ kv,
            match kv with
            | (k, v) =>
                match member_schema schema k with
                | Some sub => validate sub v
                | None => true
                end
            end) members
      | JArr items =>
          match keyword schema "items" with
          | Some sub => forallb (validate sub) items
          | None => true
          end
      | _ => true
      end
  | _ => false
  end.

(** ** Schemas and the declarations that mirror them

    The required list of a columnar schema is the names of its
    non-nullable fields; that of a JSON Schema is its [required] keyword. *)

Inductive schema_ref :=
  | Columnar (fields : list pa.Field)
  | Json (schema : json).

Definition required_list (s : schema_ref) : list string :=
  match s with
  | Columnar fs => pa.name <$> filter (λ f, pa.nullable f = false) fs
  | Json j => json_required j
  end.

Definition schema_names (s : schema_ref) : list string :=
  match s with
  | Columnar fs => pa.name <$> fs
  | Json j => json_properties j
  end.

(** Each TypedDict with the schema stated above it in the module.  The
    patient schema is taken at an arbitrary metadata type. *)
Definition declarations (arg : option pa.DataType)
  : list (typing.typed_dict * schema_ref) :=
  let patient := patient_schema arg in
  [ (Measurement,
      Columnar (pa.struct_fields (default pa.null (static_measurement_type patient))));
    (Event, Columnar (pa.struct_fields (default pa.null (event_type patient))));
    (Patient, Columnar (pa.schema_fields patient));
    (Label, Columnar (pa.schema_fields label));
    (CodeMetadataEntry, Json code_metadata_entry);
    (DatasetMetadata, Json dataset_metadata) ].

(** A declaration marks a key optional exactly when the schema does not
    require it. *)
Definition mirrors_exactly (d : typing.typed_dict) (s : schema_ref) : Prop :=
  ∀ k, k ∈ typing.field_names d →
    (k ∈ typing.optional_keys d ↔ k ∉ required_list s).

(** ** Running the module

    Module-level names live in the globals of the module.  The module's
    own statements bind them; a call of [patient_schema] runs its body in
    a fresh frame of locals, with the globals at hand, and reads the
    global [pa] wherever the body names it.  [Py] threads locals and
    globals through a run; a run can read and write both. *)

(** The pyarrow factories the module calls. *)
Inductive pa_fn :=
  | fn_null | fn_string | fn_float32 | fn_int64 | fn_bool_
  | fn_timestamp | fn_list_ | fn_struct | fn_schema.

Inductive object :=
  | OValue (v : value)
  | OType (t : pa.DataType)
  | OSchema (s : pa.Schema)
  | OJson (j : json)
  | OTypedDict (d : typing.typed_dict)
  | OHint (h : typing.hint)
  | OModule (name : string)                    (* an imported module *)
  | OImported (name : string)                  (* a name imported from a module *)
  | OClass (name : string)                     (* class BirthCode *)
  | OFunction (name : string) (default : object)   (* def patient_schema *)
  | OBuiltin (f : pa_fn).

(** The arguments of a call: none, one, the strings after a star, or a
    list of (name, type) pairs. *)
Inductive args :=
  | NoArgs
  | OneArg (o : object)
  | Strings (l : list string)
  | Fields (fs : list (string * object)).

Record state := State {
  f_locals : gmap string object;
  f_globals : gmap string object
}.

Definition Py (A : Type) : Type := state → result A * state.

Definition ret {A} (a : A) : Py A := λ st, (Ok a, st).

Definition bind {A B} (m : Py A) (k : A → Py B) : Py B :=
  λ st,
    match m st with
    | (Ok a, st') => k a st'
    | (Raise e, st') => (Raise e, st')
    end.

Definition raise {A} (e : exn) : Py A := λ st, (Raise e, st).

(** An operation that touches neither locals nor globals. *)
Definition lift {A} (r : result A) : Py A := λ st, (r, st).

Notation "x ←ₚ m ; k" := (bind m (λ x, k))
  (at level 100, m at next level, right associativity,
   format "x  ←ₚ  m ;  '/' k").
Notation "m ;;ₚ k" := (bind m (λ _, k))
  (at level 100, right associativity, format "m  ;;ₚ  '/' k").

(** A local assignment, [n = o]. *)
Definition store_fast (n : string) (o : object) : Py () :=
  λ st, (Ok (), State (<[n := o]> (f_locals st)) (f_globals st)).

(** A read of local [n]; an unbound local cannot be read. *)
Definition load_fast (n : string) : Py object :=
  λ st,
    match f_locals st !! n with
    | Some o => (Ok o, st)
    | None => (Raise UnboundLocalError, st)
    end.

(** A module-level assignment, [n = o]. *)
Definition store_global (n : string) (o : object) : Py () :=
  λ st, (Ok (), State (f_locals st) (<[n := o]> (f_globals st))).

(** A read of global [n].  None of the names the module reads this way
    is a builtin, so an unbound name is a NameError. *)
Definition load_global (n : string) : Py object :=
  λ st,
    match f_globals st !! n with
    | Some o => (Ok o, st)
    | None => (Raise NameError, st)
    end.

(** The time units [pa.timestamp] knows. *)
Definition unit_of (u : string) : option pa.TimeUnit :=
  if bool_decide (u = "s") then Some pa.unit_s
  else if bool_decide (u = "ms") then Some pa.unit_ms
  else if bool_decide (u = "us") then Some pa.unit_us
  else if bool_decide (u = "ns") then Some pa.unit_ns
  else None.

(** The attributes of the [pyarrow] module that the module's code reads. *)
Definition pyarrow_attr (n : string) : option pa_fn :=
  if bool_decide (n = "null") then Some fn_null
  else if bool_decide (n = "string") then Some fn_string
  else if bool_decide (n = "float32") then Some fn_float32
  else if bool_decide (n = "int64") then Some fn_int64
  else if bool_decide (n = "bool_") then Some fn_bool_
  else if bool_decide (n = "timestamp") then Some fn_timestamp
  else if bool_decide (n = "list_") then Some fn_list_
  else if bool_decide (n = "struct") then Some fn_struct
  else if bool_decide (n = "schema") then Some fn_schema
  else None.

(** [o.n], for the attributes the module's code reads: the factories of
    [pyarrow] and [datetime.datetime].  No other object of the module has
    an attribute of one of these names that the code reaches. *)
Definition load_attr (o : object) (n : string) : result object :=
  match o with
  | OModule m =>
      if bool_decide (m = "pyarrow") then
        match pyarrow_attr n with
        | Some f => Ok (OBuiltin f)
        | None => Raise AttributeError
        end
      else if bool_decide (m = "datetime") && bool_decide (n = "datetime")
      then Ok (OImported "datetime.datetime")
      else Raise AttributeError
  | _ => Raise AttributeError
  end.

Section pyarrow_calls.

(** pyarrow's table of type aliases, the strings it accepts in place of a
    data type, is not part of this module. *)
Variable type_for_alias : string → option pa.DataType.

(** Where a field type is expected pyarrow takes a data type, or a string
    that names one; an unknown name is a ValueError and any other object
    a TypeError. *)
Definition ensure_type (o : object) : result pa.DataType :=
  match o with
  | OType t => Ok t
  | OValue (VStr s) =>
      match type_for_alias s with
      | Some t => Ok t
      | None => Raise ValueError
      end
  | _ => Raise TypeError
  end.

(** The (name, type) pairs of [pa.struct] and [pa.schema], each type
    taken through [ensure_type], first to last. *)
Fixpoint ensure_fields (fs : list (string * object))
  : result (list (string * pa.DataType)) :=
  match fs with
  | [] => Ok []
  | (n, o) :: fs' =>
      match ensure_type o with
      | Raise e => Raise e
      | Ok t =>
          match ensure_fields fs' with
          | Raise e => Raise e
          | Ok ts => Ok ((n, t) :: ts)
          end
      end
  end.

(** A call of a pyarrow factory.  The factories build type objects and
    touch no name of this module. *)
Definition call_pa (f : pa_fn) (a : args) : result object :=
  match f, a with
  | fn_null, NoArgs => Ok (OType pa.null)
  | fn_string, NoArgs => Ok (OType pa.string)
  | fn_float32, NoArgs => Ok (OType pa.float32)
  | fn_int64, NoArgs => Ok (OType pa.int64)
  | fn_bool_, NoArgs => Ok (OType pa.bool_)
  | fn_timestamp, OneArg (OValue (VStr u)) =>
      match unit_of u with
      | Some u' => Ok (OType (pa.timestamp u'))
      | None => Raise ValueError
      end
  | fn_list_, OneArg (OType t) => Ok (OType (pa.list_ t))
  | fn_struct, Fields fs =>
      result_map (λ ts, OType (pa.struct ts)) (ensure_fields fs)
  | fn_schema, Fields fs =>
      result_map (λ ts, OSchema (pa.schema ts)) (ensure_fields fs)
  | _, _ => Raise TypeError
  end.

(** [f(a)]: a pyarrow factory, or the class BirthCode on string codes;
    an object that is neither is not callable here. *)
Definition call (f : object) (a : args) : result object :=
  match f with
  | OBuiltin fn => call_pa fn a
  | OClass c =>
      match a with
      | Strings l =>
          if bool_decide (c = "BirthCode") then Ok (OValue (BirthCode.__init__ l))
          else Raise TypeError
      | _ => Raise TypeError
      end
  | _ => Raise TypeError
  end.

(** [pa.n]: the global [pa] is read, then its attribute. *)
Definition pa_attr (n : string) : Py object :=
  m ←ₚ load_global "pa"; lift (load_attr m n).

(** [pa.n(a)] for arguments that are constants. *)
Definition pa_call (n : string) (a : args) : Py object :=
  f ←ₚ pa_attr n; lift (call f a).

(** [pa.list_(x)] for a local [x]. *)
Definition pa_list_of_local (x : string) : Py object :=
  f ←ₚ pa_attr "list_"; o ←ₚ load_fast x; lift (call f (OneArg o)).

(** The body of [patient_schema], statement by statement; within a
    statement the callee is looked up before its arguments are
    evaluated. *)
Definition patient_schema_body : Py object :=
  (* measurement = pa.struct([...]) *)
  struct ←ₚ pa_attr "struct";
  code ←ₚ pa_call "string" NoArgs;
  text_value ←ₚ pa_call "string" NoArgs;
  numeric_value ←ₚ pa_call "float32" NoArgs;
  datetime_value ←ₚ pa_call "timestamp" (OneArg (OValue (VStr "us")));
  metadata ←ₚ load_fast "per_event_metadata_schema";
  measurement ←ₚ
    lift (call struct
      (Fields
        [ ("code", code);
          ("text_value", text_value);
          ("numeric_value", numeric_value);
          ("datetime_value", datetime_value);
          ("metadata", metadata) ]));
  store_fast "measurement" measurement ;;ₚ
  (* event = pa.struct([...]) *)
  struct ←ₚ pa_attr "struct";
  time ←ₚ pa_call "timestamp" (OneArg (OValue (VStr "us")));
  measurements ←ₚ pa_list_of_local "measurement";
  event ←ₚ
    lift (call struct
      (Fields [ ("time", time); ("measurements", measurements) ]));
  store_fast "event" event ;;ₚ
  (* patient = pa.schema([...]) *)
  schema ←ₚ pa_attr "schema";
  patient_id ←ₚ pa_call "int64" NoArgs;
  static_measurements ←ₚ pa_list_of_local "measurement";
  events ←ₚ pa_list_of_local "event";
  patient ←ₚ
    lift (call schema
      (Fields
        [ ("patient_id", patient_id);
          ("static_measurements", static_measurements);
          ("events", events) ]));
  store_fast "patient" patient ;;ₚ
  (* return patient *)
  load_fast "patient".

(** [patient_schema()] or [patient_schema(o)] with globals [g]: the
    parameter is bound in a new frame, to the argument or else to the
    default that [pa.null()] gave when the function was defined; the body
    runs; the frame is dropped.  The result comes with the globals the
    call leaves. *)
Definition call_patient_schema (arg : option object)
    (g : gmap string object) : result object * gmap string object :=
  let frame :=
    {[ "per_event_metadata_schema" := default (OType pa.null) arg ]} in
  let (r, st) := patient_schema_body (State frame g) in
  (r, f_globals st).

(** The metadata type a call works with: the default, or what pyarrow
    makes of the argument. *)
Definition metadata_type (arg : option object) : result pa.DataType :=
  match arg with
  | None => Ok pa.null
  | Some o => ensure_type o
  end.

(** Reads of global names, as the evaluation of an expression that names
    them makes. *)
Fixpoint uses (names : list string) : Py () :=
  match names with
  | [] => ret ()
  | n :: names' => _ ←ₚ load_global n; uses names'
  end.

Definition as_json (o : object) : result json :=
  match o with
  | OJson j => Ok j
  | _ => Raise TypeError
  end.

(** The statements of the module, in order.  At module level every
    assignment binds a global. *)
Definition exec_module : Py () :=
  (* imports *)
  store_global "datetime" (OModule "datetime") ;;ₚ
  store_global "Any" (OImported "typing.Any") ;;ₚ
  store_global "List" (OImported "typing.List") ;;ₚ
  store_global "Mapping" (OImported "typing.Mapping") ;;ₚ
  store_global "pa" (OModule "pyarrow") ;;ₚ
  store_global "NotRequired" (OImported "typing_extensions.NotRequired") ;;ₚ
  store_global "TypedDict" (OImported "typing_extensions.TypedDict") ;;ₚ
  (* class BirthCode, birth_code, death_code *)
  store_global "BirthCode" (OClass "BirthCode") ;;ₚ
  cls ←ₚ load_global "BirthCode";
  b ←ₚ lift (call cls (Strings ["SNOMED/184099003"; "SNOMED/3950001"]));
  store_global "birth_code" b ;;ₚ
  store_global "death_code" (OValue (VStr "SNOMED/419620001")) ;;ₚ
  (* def patient_schema(per_event_metadata_schema=pa.null()) *)
  d ←ₚ pa_call "null" NoArgs;
  store_global "patient_schema" (OFunction "patient_schema" d) ;;ₚ
  (* Measurement, Event, Patient *)
  uses ["TypedDict"; "NotRequired"; "NotRequired"; "NotRequired"] ;;ₚ
  dt ←ₚ load_global "datetime";
  _ ←ₚ lift (load_attr dt "datetime");
  uses ["NotRequired"; "Any"] ;;ₚ
  store_global "Measurement" (OTypedDict Measurement) ;;ₚ
  uses ["TypedDict"] ;;ₚ
  dt ←ₚ load_global "datetime";
  _ ←ₚ lift (load_attr dt "datetime");
  uses ["List"; "Measurement"] ;;ₚ
  store_global "Event" (OTypedDict Event) ;;ₚ
  uses ["TypedDict"; "List"; "Measurement"; "List"; "Event"] ;;ₚ
  store_global "Patient" (OTypedDict Patient) ;;ₚ
  (* label, Label *)
  schema ←ₚ pa_attr "schema";
  patient_id ←ₚ pa_call "int64" NoArgs;
  prediction_time ←ₚ pa_call "timestamp" (OneArg (OValue (VStr "us")));
  boolean_value ←ₚ pa_call "bool_" NoArgs;
  l ←ₚ
    lift (call schema
      (Fields
        [ ("patient_id", patient_id);
          ("prediction_time", prediction_time);
          ("boolean_value", boolean_value) ]));
  store_global "label" l ;;ₚ
  uses ["TypedDict"] ;;ₚ
  dt ←ₚ load_global "datetime";
  _ ←ₚ lift (load_attr dt "datetime");
  store_global "Label" (OTypedDict Label) ;;ₚ
  (* the JSON Schemas *)
  store_global "code_metadata_entry" (OJson code_metadata_entry) ;;ₚ
  e ←ₚ load_global "code_metadata_entry";
  e ←ₚ lift (as_json e);
  store_global "code_metadata"
    (OJson (JObj [ ("type", JStr "object"); ("additionalProperties", e) ])) ;;ₚ
  c ←ₚ load_global "code_metadata";
  c ←ₚ lift (as_json c);
  store_global "dataset_metadata"
    (OJson
      (JObj
        [ ("type", JStr "object");
          ("properties",
            JObj
              [ ("dataset_name", JObj [ ("type", JStr "string") ]);
                ("dataset_version", JObj [ ("type", JStr "string") ]);
                ("etl_name", JObj [ ("type", JStr "string") ]);
                ("etl_version", JObj [ ("type", JStr "string") ]);
                ("code_metadata", c) ]) ])) ;;ₚ
  (* CodeMetadataEntry, CodeMetadata, DatasetMetadata *)
  uses ["TypedDict"; "List"] ;;ₚ
  store_global "CodeMetadataEntry" (OTypedDict CodeMetadataEntry) ;;ₚ
  uses ["Mapping"; "CodeMetadataEntry"] ;;ₚ
  store_global "CodeMetadata" (OHint CodeMetadata) ;;ₚ
  uses [ "TypedDict"; "NotRequired"; "NotRequired"; "NotRequired";
         "NotRequired"; "NotRequired"; "CodeMetadata" ] ;;ₚ
  store_global "DatasetMetadata" (OTypedDict DatasetMetadata).

(** The names the module's statements bind, once it has been imported. *)
Definition module_globals : gmap string object :=
  f_globals (exec_module (State ∅ ∅)).2.

End pyarrow_calls.

(** Some of pyarrow's aliases, for the types modelled here. *)
Definition some_aliases (s : string) : option pa.DataType :=
  if bool_decide (s = "null") then Some pa.null
  else if bool_decide (s = "string") then Some pa.string
  else if bool_decide (s = "float32") then Some pa.float32
  else if bool_decide (s = "int64") then Some pa.int64
  else if bool_decide (s = "bool") then Some pa.bool_
  else None.

(** A run leaves the globals as it found them. *)
Definition keeps_globals {A} (m : Py A) : Prop :=
  ∀ st, f_globals (m st).2 = f_globals st.

(** The type of [metadata] in the Measurement struct of a schema, reached
    through [static_measurements] and through [events]. *)
Definition static_metadata_type (s : pa.Schema) : option pa.DataType :=
  m ← static_measurement_type s; field_type m "metadata".

Definition event_metadata_type (s : pa.Schema) : option pa.DataType :=
  m ← event_measurement_type s; field_type m "metadata".

(** A document of the CodeMetadataEntry shape: a description and a list
    of parent codes. *)
Definition entry_doc (d : string) (ps : list string) : json :=
  JObj [ ("description", JStr d); ("parent_codes", JArr (JStr <$> ps)) ].

(** ** Readings of the specification

    Every unhashable operand makes [birth_code == v] raise TypeError. *)
Definition unhashable_operand_raises : Prop :=
  ∀ v, hashable v = false → py_eq birth_code v = Raise TypeError.

(** Every declaration marks optional exactly the keys its schema does not
    require. *)
Definition declarations_mirror_schemas : Prop :=
  ∀ arg p, p ∈ declarations arg → mirrors_exactly p.1 p.2.

(** ** Further notions

    An operand is a string. *)
Definition is_str (v : value) : bool :=
  match v with
  | VStr _ => true
  | _ => false
  end.

(** Every field of a column type, at every depth, is nullable.  (The item
    of a list type is nullable in pyarrow.) *)
Fixpoint all_nullable (t : pa.DataType) : bool :=
  match t with
  | pa.list_ v => all_nullable v
  | pa.StructType fs =>
      (fix go (fs : list pa.Field) : bool :=
         match fs with
         | [] => true
         | pa.field _ t' b :: fs' => b && all_nullable t' && go fs'
         end) fs
  | _ => true
  end.

Definition schema_all_nullable (s : pa.Schema) : bool :=
  all_nullable (pa.StructType (pa.schema_fields s)).

(** The annotation under [NotRequired]. *)
Definition strip (h : typing.hint) : typing.hint :=
  match h with
  | typing.NotRequired h' => h'
  | _ => h
  end.

(** The TypedDicts of the module, by name. *)
Definition module_types (n : string) : option typing.typed_dict :=
  find (λ d, bool_decide (typing.td_name d = n))
    [Measurement; Event; Patient; Label; CodeMetadataEntry; DatasetMetadata].

(** The annotation of key [k] in a TypedDict. *)
Definition td_lookup (d : typing.typed_dict) (k : string) : option typing.hint :=
  snd <$> find (λ kv, bool_decide (kv.1 = k)) (typing.td_fields d).

(** A hint describes the Python values pyarrow yields for a column type:
    str for string, int for int64, float for float32, bool for bool_,
    datetime.datetime for a timestamp, a list for a list, and a dict with
    the struct's keys, in order, for a struct.  Any describes them all. *)
Fixpoint hint_agrees (h : typing.hint) (t : pa.DataType) {struct t} : bool :=
  match strip h with
  | typing.Any => true
  | typing.str => match t with pa.string => true | _ => false end
  | typing.int => match t with pa.int64 => true | _ => false end
  | typing.float => match t with pa.float32 => true | _ => false end
  | typing.bool => match t with pa.bool_ => true | _ => false end
  | typing.datetime => match t with pa.timestamp _ => true | _ => false end
  | typing.List h' =>
      match t with pa.list_ t' => hint_agrees h' t' | _ => false end
  | typing.Named n =>
      match t with
      | pa.StructType fs =>
          match module_types n with
          | Some d =>
              (fix go (kvs : list (string * typing.hint)) (fs : list pa.Field)
                 {struct fs} : bool :=
                 match kvs, fs with
                 | [], [] => true
                 | (k, hk) :: kvs', pa.field n' t' _ :: fs' =>
                     bool_decide (k = n') && hint_agrees hk t' && go kvs' fs'
                 | _, _ => false
                 end) (typing.td_fields d) fs
          | None => false
          end
      | _ => false
      end
  | _ => false
  end.

(** What the three JSON Schemas ask of a document, member by member. *)

Definition is_jstr (j : json) : bool :=
  match j with
  | JStr _ => true
  | _ => false
  end.

Definition is_jstr_array (j : json) : bool :=
  match j with
  | JArr items => forallb is_jstr items
  | _ => false
  end.

(** An entry: a string under [description], an array of strings under
    [parent_codes], anything under another key. *)
Definition accepts_entry_member (kv : string * json) : bool :=
  if bool_decide (kv.1 = "description") then is_jstr kv.2
  else if bool_decide (kv.1 = "parent_codes") then is_jstr_array kv.2
  else true.

Definition accepts_entry (j : json) : bool :=
  match j with
  | JObj ms => forallb accepts_entry_member ms
  | _ => false
  end.

(** The code metadata: an object whose values are entries. *)
Definition accepts_code_metadata (j : json) : bool :=
  match j with
  | JObj ms => forallb (λ kv, accepts_entry kv.2) ms
  | _ => false
  end.

(** The dataset metadata: a string under each of the four name and version
    keys, code metadata under [code_metadata], anything under another
    key. *)
Definition accepts_dataset_member (kv : string * json) : bool :=
  if bool_decide
       (kv.1 ∈ ["dataset_name"; "dataset_version"; "etl_name"; "etl_version"])
  then is_jstr kv.2
  else if bool_decide (kv.1 = "code_metadata") then accepts_code_metadata kv.2
  else true.

Definition accepts_dataset (j : json) : bool :=
  match j with
  | JObj ms => forallb accepts_dataset_member ms
  | _ => false
  end.

(** A decoded JSON value has the type a hint describes.  A TypedDict is
    inhabited by an object that has every required key and no key the
    declaration lacks, with values of the declared types; a Mapping with
    string keys by an object whose values all have the item type.  A bool
    is an int, and an int passes for a float. *)
Fixpoint inhabits (h : typing.hint) (doc : json) {struct doc} : bool :=
  match strip h with
  | typing.Any => true
  | typing.str => is_jstr doc
  | typing.bool => match doc with JBool _ => true | _ => false end
  | typing.int | typing.float =>
      match doc with JNum _ | JBool _ => true | _ => false end
  | typing.datetime => false
  | typing.List h' =>
      match doc with
      | JArr items => forallb (inhabits h') items
      | _ => false
      end
  | typing.Mapping hk hv =>
      match hk, doc with
      | typing.str, JObj ms =>
          forallb (λ kv, match kv with (_, v) => inhabits hv v end) ms
      | _, _ => false
      end
  | typing.Named n =>
      match module_types n, doc with
      | Some d, JObj ms =>
          forallb (λ k, bool_decide (k ∈ ms.*1)) (typing.required_keys d) &&
          forallb (λ kv,
            match kv with
            | (k, v) =>
                match td_lookup d k with
                | Some hk => inhabits hk v
                | None => false
                end
            end) ms
      | _, _ => false
      end
  | typing.NotRequired _ => false
  end.

(** * Properties *)

(** ** The sentinel codes *)

Section birth_code_equality.

Implicit Types (c s : string) (cs : gset string) (v : value).

Lemma birth_code_codes c :
  c ∈ BirthCode.codes birth_code ↔
  c = "SNOMED/184099003" ∨ c = "SNOMED/3950001".
Proof.
  unfold birth_code, BirthCode.__init__, BirthCode.codes.
  rewrite elem_of_list_to_set, !elem_of_cons, elem_of_nil. tauto.
Qed.

(** With a BirthCode on the left, [==] is the class's own [__eq__]. *)
Lemma py_eq_birth_left cs v :
  py_eq (VBirthCode cs) v = BirthCode.__eq__ (VBirthCode cs) v.
Proof.
  unfold py_eq, dunder_eq. by destruct (BirthCode.__eq__ _ _).
Qed.

(** A string operand is looked up in the backing set. *)
Lemma birth_eq_str cs c :
  BirthCode.__eq__ (VBirthCode cs) (VStr c) = Ok (bool_decide (c ∈ cs)).
Proof. reflexivity. Qed.

(** str declines a BirthCode operand. *)
Lemma str_eq_declines s cs : dunder_eq (VStr s) (VBirthCode cs) = Ok None.
Proof. reflexivity. Qed.

(** With a string on the left, the reflected [__eq__] of the BirthCode
    decides. *)
Lemma py_eq_str_birth s cs :
  py_eq (VStr s) (VBirthCode cs) = BirthCode.__eq__ (VBirthCode cs) (VStr s).
Proof. reflexivity. Qed.

Lemma ok_bool_decide_true (P : Prop) `{!Decision P} :
  Ok (bool_decide P) = Ok true ↔ P.
Proof. case_bool_decide; naive_solver. Qed.

Lemma ok_bool_decide_false (P : Prop) `{!Decision P} :
  Ok (bool_decide P) = Ok false ↔ ¬ P.
Proof. case_bool_decide; naive_solver. Qed.

(** What [birth_code == c] answers for a string [c]. *)
Lemma birth_code_eq_str c :
  py_eq birth_code (VStr c)
  = Ok (bool_decide (c = "SNOMED/184099003" ∨ c = "SNOMED/3950001")).
Proof.
  unfold birth_code, BirthCode.__init__.
  rewrite py_eq_birth_left, birth_eq_str. f_equal.
  apply bool_decide_ext, birth_code_codes.
Qed.

(** C1: for every candidate string [c], [birth_code == c] is True exactly
    when [c] is one of the two synonyms "SNOMED/184099003" and
    "SNOMED/3950001", and False for any other string. *)
Theorem birth_code_eq_synonyms c :
  (py_eq birth_code (VStr c) = Ok true ↔
     c = "SNOMED/184099003" ∨ c = "SNOMED/3950001") ∧
  (py_eq birth_code (VStr c) = Ok false ↔
     ¬ (c = "SNOMED/184099003" ∨ c = "SNOMED/3950001")).
Proof.
  rewrite birth_code_eq_str.
  by rewrite ok_bool_decide_true, ok_bool_decide_false.
Qed.

Example birth_code_eq_first : py_eq birth_code (VStr "SNOMED/184099003") = Ok true.
Proof. reflexivity. Qed.

Example birth_code_eq_second : py_eq birth_code (VStr "SNOMED/3950001") = Ok true.
Proof. reflexivity. Qed.

Example birth_code_eq_death : py_eq birth_code death_code = Ok false.
Proof. reflexivity. Qed.

(** C6: [death_code] is a plain string: [death_code == c] is True for the
    string "SNOMED/419620001", for no other string, and False for every
    other string. *)
Theorem death_code_eq_one c :
  death_code = VStr "SNOMED/419620001" ∧
  (py_eq death_code (VStr c) = Ok true ↔ c = "SNOMED/419620001") ∧
  (py_eq death_code (VStr c) = Ok false ↔ c ≠ "SNOMED/419620001") ∧
  (exists! d, py_eq death_code (VStr d) = Ok true).
Proof.
  assert (E : ∀ d, py_eq death_code (VStr d)
                   = Ok (bool_decide ("SNOMED/419620001" = d))) by done.
  split; [done |]. rewrite E, ok_bool_decide_true, ok_bool_decide_false.
  split; [naive_solver |]. split; [naive_solver |].
  exists "SNOMED/419620001". split; [done |].
  intros d. rewrite E, ok_bool_decide_true. done.
Qed.

(** C10: for every string [s], [s == birth_code] gives the boolean that
    [birth_code == s] gives, True exactly for the two backing codes: str
    answers NotImplemented for a BirthCode operand and the reflected
    [BirthCode.__eq__] decides. *)
Theorem str_eq_birth_code_reflected s :
  dunder_eq (VStr s) birth_code = Ok None ∧
  py_eq (VStr s) birth_code = py_eq birth_code (VStr s) ∧
  (py_eq (VStr s) birth_code = Ok true ↔
     s = "SNOMED/184099003" ∨ s = "SNOMED/3950001") ∧
  (py_eq (VStr s) birth_code = Ok false ↔
     ¬ (s = "SNOMED/184099003" ∨ s = "SNOMED/3950001")).
Proof.
  split; [done |]. split; [done |].
  change (py_eq (VStr s) birth_code) with (py_eq birth_code (VStr s)).
  rewrite birth_code_eq_str.
  by rewrite ok_bool_decide_true, ok_bool_decide_false.
Qed.

(** C9, counterexample: a set is unhashable, yet [birth_code == set()]
    returns False: set membership retries the lookup with a frozenset of
    the operand. *)
Lemma birth_code_eq_set_no_raise :
  hashable (VSet []) = false ∧
  py_eq birth_code (VSet []) = Ok false ∧
  ¬ unhashable_operand_raises.
Proof.
  split; [done |]. split; [done |].
  intros H. by specialize (H (VSet []) eq_refl).
Qed.

(** C9, amended: comparing a BirthCode with an unhashable operand raises
    TypeError unless the operand is a set, for which the answer is False;
    a BirthCode is itself unhashable, so [birth_code == birth_code] raises
    TypeError and the equality is not reflexive. *)
Theorem birth_code_eq_unhashable cs v :
  hashable v = false →
  py_eq (VBirthCode cs) v = (if is_set v then Ok false else Raise TypeError) ∧
  hashable birth_code = false ∧
  py_eq birth_code birth_code = Raise TypeError.
Proof.
  intros Hv. split; [| done].
  rewrite py_eq_birth_left. unfold BirthCode.__eq__, set_contains.
  by rewrite Hv.
Qed.

Lemma birth_code_eq_unhashable_witness :
  hashable (VList [AStr "SNOMED/3950001"]) = false ∧
  py_eq birth_code (VList [AStr "SNOMED/3950001"]) = Raise TypeError.
Proof.
  split; [reflexivity |].
  exact (proj1 (birth_code_eq_unhashable
                  (BirthCode.codes birth_code)
                  (VList [AStr "SNOMED/3950001"]) eq_refl)).
Defined.

(** No built-in type answers for a BirthCode operand, and a BirthCode
    answers for every operand: the two orders of [==] agree. *)
Lemma py_eq_birth_right cs v :
  py_eq v (VBirthCode cs) = py_eq (VBirthCode cs) v.
Proof. destruct v as [[]| | | | | |]; reflexivity. Qed.

Example birth_code_eq_int : py_eq birth_code (VInt 3950001) = Ok false.
Proof. reflexivity. Qed.

Example birth_code_eq_none : py_eq birth_code VNone = Ok false.
Proof. reflexivity. Qed.

Example birth_code_eq_tuple :
  py_eq birth_code (VTuple [AStr "SNOMED/3950001"]) = Ok false.
Proof. reflexivity. Qed.

Example birth_code_eq_set :
  py_eq birth_code (VSet [AStr "SNOMED/3950001"]) = Ok false.
Proof. reflexivity. Qed.

Example birth_code_eq_dict : py_eq birth_code (VDict []) = Raise TypeError.
Proof. reflexivity. Qed.

Example list_eq_birth_code :
  py_eq (VList [AStr "SNOMED/3950001"]) birth_code = Raise TypeError.
Proof. reflexivity. Qed.

Example bool_eq_int : py_eq (VBool true) (VInt 1) = Ok true.
Proof. reflexivity. Qed.

(** A hashable operand that is not a string is never a birth code. *)
Lemma birth_code_eq_other_hashable cs v :
  hashable v = true → (∀ c, v ≠ VStr c) →
  py_eq (VBirthCode cs) v = Ok false.
Proof.
  intros Hv Hs. rewrite py_eq_birth_left.
  unfold BirthCode.__eq__, set_contains. rewrite Hv.
  destruct v as [[]| | | | | |]; try done. by destruct (Hs s).
Qed.

End birth_code_equality.

(** ** The columnar schemas *)

Section columnar.

Implicit Types (arg : option pa.DataType) (t : pa.DataType).

(** C2: without an argument the Measurement struct's [metadata] field has
    the null type; with a column type [t] it has type [t]. *)
Theorem patient_schema_metadata_type t :
  static_metadata_type (patient_schema None) = Some pa.null ∧
  event_metadata_type (patient_schema None) = Some pa.null ∧
  static_metadata_type (patient_schema (Some t)) = Some t ∧
  event_metadata_type (patient_schema (Some t)) = Some t.
Proof. repeat split; reflexivity. Qed.

(** C3: the label schema has the three fields [patient_id] (int64),
    [prediction_time] (timestamp in microseconds) and [boolean_value]
    (bool), in this order, and no other. *)
Theorem label_fields :
  pa.schema_fields label
  = [ pa.field "patient_id" pa.int64 true;
      pa.field "prediction_time" (pa.timestamp pa.unit_us) true;
      pa.field "boolean_value" pa.bool_ true ] ∧
  length (pa.schema_fields label) = 3 ∧
  pa.name <$> pa.schema_fields label
  = ["patient_id"; "prediction_time"; "boolean_value"] ∧
  pa.type <$> pa.schema_fields label
  = [pa.int64; pa.timestamp pa.unit_us; pa.bool_].
Proof. repeat split; reflexivity. Qed.

(** C7: for every metadata argument the Measurement struct has the five
    fields [code] (string), [text_value] (string), [numeric_value]
    (float32), [datetime_value] (timestamp in microseconds) and
    [metadata] (the argument's type), in this order. *)
Theorem measurement_struct_fields arg :
  let m :=
    pa.StructType
      [ pa.field "code" pa.string true;
        pa.field "text_value" pa.string true;
        pa.field "numeric_value" pa.float32 true;
        pa.field "datetime_value" (pa.timestamp pa.unit_us) true;
        pa.field "metadata" (default pa.null arg) true ] in
  static_measurement_type (patient_schema arg) = Some m ∧
  event_measurement_type (patient_schema arg) = Some m ∧
  length (pa.struct_fields m) = 5.
Proof. repeat split; reflexivity. Qed.

(** The whole patient schema. *)
Lemma patient_schema_fields arg :
  ∃ m e,
    static_measurement_type (patient_schema arg) = Some m ∧
    event_type (patient_schema arg) = Some e ∧
    e = pa.StructType
          [ pa.field "time" (pa.timestamp pa.unit_us) true;
            pa.field "measurements" (pa.list_ m) true ] ∧
    pa.schema_fields (patient_schema arg)
    = [ pa.field "patient_id" pa.int64 true;
        pa.field "static_measurements" (pa.list_ m) true;
        pa.field "events" (pa.list_ e) true ].
Proof. eexists _, _. repeat split; reflexivity. Qed.

End columnar.

(** ** The dataset metadata schema *)

Section json_schema.

Implicit Types (n k d : string) (ps : list string) (kw ms : list (string * json)).

Ltac eval_closed t :=
  let v := eval vm_compute in t in progress change t with v.

(** Evaluate the lookups into a schema that the goal mentions. *)
Ltac schema_step :=
  match goal with
  | |- context [type_ok ?s ?i] => eval_closed (type_ok s i)
  | |- context [required_ok ?s ?m] => eval_closed (required_ok s m)
  | |- context [member_schema ?s ?k] => eval_closed (member_schema s k)
  | |- context [keyword ?s ?k] => eval_closed (keyword s k)
  end.

Ltac schema_eval := repeat schema_step; cbv beta iota.

Lemma validate_obj_obj kw ms :
  validate (JObj kw) (JObj ms)
  = type_ok (JObj kw) (JObj ms) &&
    (required_ok (JObj kw) ms &&
     forallb (λ kv,
       match kv with
       | (k, v) =>
           match member_schema (JObj kw) k with
           | Some sub => validate sub v
           | None => true
           end
       end) ms).
Proof. reflexivity. Qed.

Lemma validate_obj_arr kw (items : list json) :
  validate (JObj kw) (JArr items)
  = type_ok (JObj kw) (JArr items) &&
    match keyword (JObj kw) "items" with
    | Some sub => forallb (validate sub) items
    | None => true
    end.
Proof. reflexivity. Qed.

Lemma validate_obj_str kw (s : string) :
  validate (JObj kw) (JStr s) = type_ok (JObj kw) (JStr s) && true.
Proof. reflexivity. Qed.

Lemma validate_strings ps :
  forallb (validate (JObj [("type", JStr "string")])) (JStr <$> ps) = true.
Proof. induction ps as [|p ps IH]; [done |]. simpl. exact IH. Qed.

Lemma validate_entry d ps : validate code_metadata_entry (entry_doc d ps) = true.
Proof.
  unfold code_metadata_entry, entry_doc.
  rewrite validate_obj_obj. cbn [forallb]. schema_eval.
  rewrite validate_obj_str, validate_obj_arr. schema_eval.
  by rewrite validate_strings.
Qed.

Lemma validate_code_metadata k d ps :
  validate code_metadata (JObj [(k, entry_doc d ps)]) = true.
Proof.
  unfold code_metadata at 1.
  rewrite validate_obj_obj. cbn [forallb]. schema_eval.
  fold code_metadata_entry. by rewrite validate_entry.
Qed.

Lemma validate_dataset_code_metadata k d ps :
  validate dataset_metadata
    (JObj [("code_metadata", JObj [(k, entry_doc d ps)])]) = true.
Proof.
  unfold dataset_metadata at 1.
  rewrite validate_obj_obj. cbn [forallb]. schema_eval.
  fold code_metadata_entry. fold code_metadata.
  by rewrite validate_code_metadata.
Qed.

Lemma validate_dataset_name n :
  validate dataset_metadata (JObj [("dataset_name", JStr n)]) = true.
Proof. reflexivity. Qed.

(** No member of a dataset metadata document is needed by another:
    dropping members from a valid document leaves it valid. *)
Lemma dataset_metadata_members_optional ms ms' :
  ms' ⊆ ms →
  validate dataset_metadata (JObj ms) = true →
  validate dataset_metadata (JObj ms') = true.
Proof.
  intros Hsub. unfold dataset_metadata.
  rewrite !validate_obj_obj. schema_eval. simpl.
  rewrite !forallb_forall. intros H x Hx.
  apply H, list_elem_of_In, Hsub, list_elem_of_In, Hx.
Qed.

(** The validator does reject: a name that is not a string, an entry
    whose description is not a string, a parent code that is not one. *)
Example dataset_name_number_rejected :
  validate dataset_metadata (JObj [("dataset_name", JNum 3)]) = false.
Proof. reflexivity. Qed.

Example entry_description_number_rejected :
  validate dataset_metadata
    (JObj [("code_metadata",
            JObj [("SNOMED/3950001", JObj [("description", JNum 0)])])])
  = false.
Proof. reflexivity. Qed.

Example entry_parent_number_rejected :
  validate code_metadata
    (JObj [("SNOMED/3950001", JObj [("parent_codes", JArr [JStr "a"; JNum 1])])])
  = false.
Proof. reflexivity. Qed.

(** C4: [dataset_metadata] has no [required] list, at any level; it
    accepts a document that has only [dataset_name]; its [code_metadata]
    property is the [code_metadata] schema, which sends every key to
    [code_metadata_entry] and so accepts an object whose value under an
    arbitrary key has a string [description] and an array of strings
    [parent_codes]. *)
Theorem dataset_metadata_accepts n k d ps :
  (keyword dataset_metadata "required" = None ∧
   keyword code_metadata "required" = None ∧
   keyword code_metadata_entry "required" = None) ∧
  json_properties dataset_metadata
  = ["dataset_name"; "dataset_version"; "etl_name"; "etl_version";
     "code_metadata"] ∧
  validate dataset_metadata (JObj [("dataset_name", JStr n)]) = true ∧
  validate dataset_metadata (JObj []) = true ∧
  member_schema dataset_metadata "code_metadata" = Some code_metadata ∧
  member_schema code_metadata k = Some code_metadata_entry ∧
  validate code_metadata (JObj [(k, entry_doc d ps)]) = true ∧
  validate dataset_metadata
    (JObj [("code_metadata", JObj [(k, entry_doc d ps)])]) = true.
Proof.
  split; [done |]. split; [done |]. split; [done |]. split; [done |].
  split; [done |]. split; [done |].
  split; [apply validate_code_metadata | apply validate_dataset_code_metadata].
Qed.

End json_schema.

(** ** The declarations against the schemas *)

Section mirrors.

(** C5, counterexample: [CodeMetadataEntry] declares [description]
    required, while [code_metadata_entry] has no [required] list. *)
Lemma code_metadata_entry_not_mirrored :
  ("description" ∈ typing.field_names CodeMetadataEntry) ∧
  ("description" ∉ typing.optional_keys CodeMetadataEntry) ∧
  ("description" ∉ required_list (Json code_metadata_entry)) ∧
  ¬ mirrors_exactly CodeMetadataEntry (Json code_metadata_entry) ∧
  ¬ declarations_mirror_schemas.
Proof.
  assert (H1 : "description" ∈ typing.field_names CodeMetadataEntry)
    by (vm_compute; left).
  assert (H2 : "description" ∉ typing.optional_keys CodeMetadataEntry)
    by (vm_compute; apply not_elem_of_nil).
  assert (H3 : "description" ∉ required_list (Json code_metadata_entry))
    by (vm_compute; apply not_elem_of_nil).
  assert (H4 : ¬ mirrors_exactly CodeMetadataEntry (Json code_metadata_entry)).
  { intros H. apply H2, (H _ H1), H3. }
  repeat split; try done.
  intros H. apply H4.
  apply (H None (CodeMetadataEntry, Json code_metadata_entry)).
  unfold declarations. rewrite !elem_of_cons. tauto.
Qed.

(** C5, amended: no schema of the module requires a field, every
    declaration has the keys of its schema, and so a key marked
    NotRequired is never in a required list.  The NotRequired keys are
    the four value keys of Measurement and all keys of DatasetMetadata,
    which is the one declaration whose markings match its schema exactly;
    the keys of Event, Patient, Label and CodeMetadataEntry, and [code] of
    Measurement, are declared required. *)
Theorem optional_keys_not_required (arg : option pa.DataType) :
  Forall (λ p,
      required_list p.2 = [] ∧
      typing.field_names p.1 = schema_names p.2 ∧
      ∀ k, k ∈ typing.optional_keys p.1 → k ∉ required_list p.2)
    (declarations arg) ∧
  mirrors_exactly DatasetMetadata (Json dataset_metadata) ∧
  typing.optional_keys Measurement
  = ["text_value"; "numeric_value"; "datetime_value"; "metadata"] ∧
  typing.required_keys Measurement = ["code"] ∧
  typing.optional_keys DatasetMetadata = typing.field_names DatasetMetadata ∧
  typing.optional_keys Event = [] ∧
  typing.optional_keys Patient = [] ∧
  typing.optional_keys Label = [] ∧
  typing.optional_keys CodeMetadataEntry = [].
Proof.
  split; [| split; [| by repeat split]].
  - unfold declarations.
    repeat (apply Forall_cons_2;
            [split; [reflexivity | split; [reflexivity |]];
             intros k _; apply not_elem_of_nil |]).
    apply Forall_nil_2.
  - intros k Hk. split; [intros _; apply not_elem_of_nil | intros _; exact Hk].
Qed.

End mirrors.

(** ** Calls of [patient_schema] *)

Section calls.

Variable aliases : string → option pa.DataType.

Implicit Types (arg : option object) (g l : gmap string object).

Lemma bind_run {A B} (m : Py A) (k : A → Py B) st :
  bind m k st
  = match m st with
    | (Ok a, st') => k a st'
    | (Raise e, st') => (Raise e, st')
    end.
Proof. reflexivity. Qed.

(** *** One step at a time *)

Lemma pa_attr_run n f l g :
  g !! "pa" = Some (OModule "pyarrow") → pyarrow_attr n = Some f →
  pa_attr n (State l g) = (Ok (OBuiltin f), State l g).
Proof.
  intros Hpa Hf. unfold pa_attr, bind, load_global, lift. simpl.
  rewrite Hpa. unfold load_attr. by rewrite bool_decide_eq_true_2, Hf.
Qed.

Lemma pa_call_run n f a l g :
  g !! "pa" = Some (OModule "pyarrow") → pyarrow_attr n = Some f →
  pa_call aliases n a (State l g) = (call_pa aliases f a, State l g).
Proof.
  intros Hpa Hf. unfold pa_call. by rewrite bind_run, (pa_attr_run n f).
Qed.

Lemma load_fast_run x o l g :
  l !! x = Some o → load_fast x (State l g) = (Ok o, State l g).
Proof. intros H. unfold load_fast. simpl. by rewrite H. Qed.

Lemma store_fast_run x o l g :
  store_fast x o (State l g) = (Ok (), State (<[x := o]> l) g).
Proof. reflexivity. Qed.

Lemma pa_list_of_local_run x t l g :
  g !! "pa" = Some (OModule "pyarrow") → l !! x = Some (OType t) →
  pa_list_of_local aliases x (State l g) = (Ok (OType (pa.list_ t)), State l g).
Proof.
  intros Hpa Hx. unfold pa_list_of_local.
  rewrite bind_run, (pa_attr_run "list_" fn_list_) by done.
  by rewrite bind_run, (load_fast_run x (OType t)).
Qed.

Lemma timestamp_us :
  call_pa aliases fn_timestamp (OneArg (OValue (VStr "us")))
  = Ok (OType (pa.timestamp pa.unit_us)).
Proof. reflexivity. Qed.

Lemma metadata_type_default arg :
  metadata_type aliases arg = ensure_type aliases (default (OType pa.null) arg).
Proof. by destruct arg. Qed.

(** With [pa] bound to pyarrow, a call returns the schema of the metadata
    type, or the error pyarrow raises on the argument, and the globals it
    was given. *)
Lemma call_patient_schema_run arg g :
  g !! "pa" = Some (OModule "pyarrow") →
  call_patient_schema aliases arg g
  = (result_map (λ t, OSchema (patient_schema (Some t)))
       (metadata_type aliases arg), g).
Proof.
  intros Hpa. rewrite metadata_type_default.
  unfold call_patient_schema, patient_schema_body.
  set (d := default (OType pa.null) arg).
  rewrite bind_run, (pa_attr_run "struct" fn_struct) by done.
  rewrite bind_run, (pa_call_run "string" fn_string) by done. cbn [call_pa].
  rewrite bind_run, (pa_call_run "string" fn_string) by done. cbn [call_pa].
  rewrite bind_run, (pa_call_run "float32" fn_float32) by done. cbn [call_pa].
  rewrite bind_run, (pa_call_run "timestamp" fn_timestamp) by done.
  rewrite timestamp_us.
  rewrite bind_run, (load_fast_run _ d) by done.
  rewrite bind_run. unfold lift at 1.
  cbn [call call_pa ensure_fields ensure_type result_map].
  destruct (ensure_type aliases d) as [t | e]; [| done].
  cbn [result_map].
  rewrite bind_run, store_fast_run.
  rewrite bind_run, (pa_attr_run "struct" fn_struct) by done.
  rewrite bind_run, (pa_call_run "timestamp" fn_timestamp) by done.
  rewrite timestamp_us.
  rewrite bind_run;
    erewrite (pa_list_of_local_run "measurement" _ _ _ Hpa) by reflexivity.
  rewrite bind_run. unfold lift at 1.
  cbn [call call_pa ensure_fields ensure_type result_map].
  rewrite bind_run, store_fast_run.
  rewrite bind_run, (pa_attr_run "schema" fn_schema) by done.
  rewrite bind_run, (pa_call_run "int64" fn_int64) by done. cbn [call_pa].
  rewrite bind_run;
    erewrite (pa_list_of_local_run "measurement" _ _ _ Hpa) by reflexivity.
  rewrite bind_run;
    erewrite (pa_list_of_local_run "event" _ _ _ Hpa) by reflexivity.
  reflexivity.
Qed.

(** The result does depend on the globals: without [pa] the first
    statement fails, and with [pa] rebound to an object that lacks the
    factory it fails too. *)
Lemma call_patient_schema_without_pa arg g o :
  (g !! "pa" = None →
   call_patient_schema aliases arg g = (Raise NameError, g)) ∧
  (g !! "pa" = Some (OValue o) →
   call_patient_schema aliases arg g = (Raise AttributeError, g)).
Proof.
  split; intros Hpa.
  - unfold call_patient_schema, patient_schema_body, pa_attr.
    rewrite !bind_run. unfold load_global at 1. simpl. by rewrite Hpa.
  - unfold call_patient_schema, patient_schema_body, pa_attr.
    rewrite !bind_run. unfold load_global at 1. simpl. by rewrite Hpa.
Qed.

(** *** What a run leaves of the globals *)

(** A global assignment does change the globals. *)
Lemma store_global_writes x o l g :
  f_globals (store_global x o (State l g)).2 = <[x := o]> g.
Proof. reflexivity. Qed.

Lemma lift_keeps {A} (r : result A) : keeps_globals (lift r).
Proof. by intros st. Qed.

Lemma load_fast_keeps x : keeps_globals (load_fast x).
Proof. intros st. unfold load_fast. by destruct (f_locals st !! x). Qed.

Lemma store_fast_keeps x o : keeps_globals (store_fast x o).
Proof. by intros st. Qed.

Lemma load_global_keeps x : keeps_globals (load_global x).
Proof. intros st. unfold load_global. by destruct (f_globals st !! x). Qed.

Lemma bind_keeps {A B} (m : Py A) (k : A → Py B) :
  keeps_globals m → (∀ a, keeps_globals (k a)) → keeps_globals (bind m k).
Proof.
  intros Hm Hk st. rewrite bind_run. specialize (Hm st).
  destruct (m st) as [[a | e] st']; simpl in *; [| done].
  by rewrite Hk.
Qed.

Lemma pa_attr_keeps n : keeps_globals (pa_attr n).
Proof.
  apply bind_keeps; [apply load_global_keeps | intros; apply lift_keeps].
Qed.

Lemma pa_call_keeps n a : keeps_globals (pa_call aliases n a).
Proof. apply bind_keeps; [apply pa_attr_keeps | intros; apply lift_keeps]. Qed.

Lemma pa_list_of_local_keeps x : keeps_globals (pa_list_of_local aliases x).
Proof.
  apply bind_keeps; [apply pa_attr_keeps | intros].
  apply bind_keeps; [apply load_fast_keeps | intros; apply lift_keeps].
Qed.

(** The body has no global assignment: whatever the frame and the
    globals, and whether it returns or raises, the globals stay. *)
Lemma patient_schema_body_keeps : keeps_globals (patient_schema_body aliases).
Proof.
  unfold patient_schema_body.
  repeat first
    [ apply lift_keeps | apply load_fast_keeps | apply store_fast_keeps
    | apply pa_attr_keeps | apply pa_call_keeps | apply pa_list_of_local_keeps
    | apply bind_keeps; [| intros ?] ].
Qed.

Lemma call_patient_schema_keeps arg g :
  (call_patient_schema aliases arg g).2 = g.
Proof.
  unfold call_patient_schema.
  pose proof (patient_schema_body_keeps
    (State {[ "per_event_metadata_schema" := default (OType pa.null) arg ]} g))
    as H.
  by destruct (patient_schema_body _ _).
Qed.

(** *** The module's globals *)

(** The module's statements run to the end, and bind [pa] to pyarrow
    and [patient_schema] to a function whose default is the null type. *)
Lemma exec_module_ok :
  (exec_module aliases (State ∅ ∅)).1 = Ok () ∧
  module_globals aliases !! "pa" = Some (OModule "pyarrow") ∧
  module_globals aliases !! "patient_schema"
  = Some (OFunction "patient_schema" (OType pa.null)).
Proof. repeat split; reflexivity. Qed.

(** The schemas the statements build are the ones defined above. *)
Lemma module_globals_schemas :
  module_globals aliases !! "birth_code" = Some (OValue birth_code) ∧
  module_globals aliases !! "death_code" = Some (OValue death_code) ∧
  module_globals aliases !! "label" = Some (OSchema label) ∧
  module_globals aliases !! "code_metadata_entry"
  = Some (OJson code_metadata_entry) ∧
  module_globals aliases !! "code_metadata" = Some (OJson code_metadata) ∧
  module_globals aliases !! "dataset_metadata" = Some (OJson dataset_metadata).
Proof. repeat split; reflexivity. Qed.

(** C8: with [pa] bound to pyarrow, as the module binds it, a call of
    [patient_schema] returns the schema of its metadata type (for a column
    type, or no argument, the schema of the pure function), the same
    whatever else the globals hold and however often it is made, and it
    leaves the globals as they were; after a call from the module's
    globals, [birth_code], [death_code], [label] and [dataset_metadata]
    are what the module bound them to. *)
Theorem patient_schema_pure arg g g' :
  g !! "pa" = Some (OModule "pyarrow") →
  g' !! "pa" = Some (OModule "pyarrow") →
  (call_patient_schema aliases arg g).1
  = result_map (λ t, OSchema (patient_schema (Some t)))
      (metadata_type aliases arg) ∧
  (∀ t : option pa.DataType,
     (call_patient_schema aliases (OType <$> t) g).1
     = Ok (OSchema (patient_schema t))) ∧
  (call_patient_schema aliases arg g).1 = (call_patient_schema aliases arg g').1 ∧
  (call_patient_schema aliases arg (call_patient_schema aliases arg g).2).1
  = (call_patient_schema aliases arg g).1 ∧
  (call_patient_schema aliases arg g).2 = g ∧
  (let after := (call_patient_schema aliases arg (module_globals aliases)).2 in
   after !! "birth_code" = Some (OValue birth_code) ∧
   after !! "death_code" = Some (OValue death_code) ∧
   after !! "label" = Some (OSchema label) ∧
   after !! "dataset_metadata" = Some (OJson dataset_metadata)).
Proof.
  intros Hpa Hpa'.
  rewrite !call_patient_schema_keeps.
  rewrite (call_patient_schema_run arg g Hpa), (call_patient_schema_run arg g' Hpa').
  split; [done |]. split.
  { intros t. rewrite (call_patient_schema_run _ g Hpa). by destruct t. }
  split; [done |]. split; [done |]. split; [done |].
  cbv zeta. repeat split; reflexivity.
Qed.

End calls.

Lemma patient_schema_pure_witness :
  (call_patient_schema some_aliases (Some (OValue (VStr "int64")))
     (module_globals some_aliases)).1
  = Ok (OSchema (patient_schema (Some pa.int64))) ∧
  (call_patient_schema some_aliases (Some (OValue (VStr "int64")))
     (module_globals some_aliases)).2
  = module_globals some_aliases.
Proof.
  destruct (patient_schema_pure some_aliases
              (Some (OValue (VStr "int64")))
              (module_globals some_aliases) (module_globals some_aliases)
              eq_refl eq_refl)
    as (H1 & _ & _ & _ & H2 & _).
  split; [exact H1 | exact H2].
Defined.

(** An argument that is no data type and no alias is pyarrow's error, and
    the globals stay all the same. *)
Example call_with_unknown_alias :
  call_patient_schema some_aliases (Some (OValue (VStr "no such type")))
    (module_globals some_aliases)
  = (Raise ValueError, module_globals some_aliases).
Proof.
  rewrite (call_patient_schema_run some_aliases) by reflexivity. reflexivity.
Qed.

Example call_with_number :
  call_patient_schema some_aliases (Some (OValue (VInt 3)))
    (module_globals some_aliases)
  = (Raise TypeError, module_globals some_aliases).
Proof.
  rewrite (call_patient_schema_run some_aliases) by reflexivity. reflexivity.
Qed.

(** ** The BirthCode class at large *)

Section birth_code_class.

Implicit Types (c : string) (codes : list string) (cs : gset string) (v : value).

(** X1: a BirthCode built from [codes] equals a string, from either side,
    exactly when the string is among [codes], and never raises on a
    string; one built from no code equals no string. *)
Theorem birth_code_class_membership codes c :
  py_eq (BirthCode.__init__ codes) (VStr c) = Ok (bool_decide (c ∈ codes)) ∧
  py_eq (VStr c) (BirthCode.__init__ codes) = Ok (bool_decide (c ∈ codes)) ∧
  py_eq (BirthCode.__init__ []) (VStr c) = Ok false.
Proof.
  assert (E : ∀ l, py_eq (BirthCode.__init__ l) (VStr c)
                   = Ok (bool_decide (c ∈ l))).
  { intros l. unfold BirthCode.__init__. rewrite py_eq_birth_left, birth_eq_str.
    f_equal. apply bool_decide_ext, elem_of_list_to_set. }
  split; [apply E |]. split.
  - unfold BirthCode.__init__. rewrite py_eq_birth_right. apply E.
  - by rewrite E.
Qed.

(** X2: the codes are kept as a set: two argument lists with the same
    elements, in whatever order and however often repeated, give a
    BirthCode with the same outcome in every comparison, from either
    side, whatever the operand. *)
Theorem birth_code_class_set_semantics codes codes' v :
  (∀ c, c ∈ codes ↔ c ∈ codes') →
  py_eq (BirthCode.__init__ codes) v = py_eq (BirthCode.__init__ codes') v ∧
  py_eq v (BirthCode.__init__ codes) = py_eq v (BirthCode.__init__ codes').
Proof.
  intros H.
  assert (E : BirthCode.__init__ codes = BirthCode.__init__ codes').
  { unfold BirthCode.__init__. f_equal. apply sets.set_eq. intros x.
    by rewrite !elem_of_list_to_set. }
  by rewrite E.
Qed.

Lemma birth_code_class_set_semantics_witness :
  py_eq (BirthCode.__init__ ["a"; "b"; "c"]) (VStr "c")
  = py_eq (BirthCode.__init__ ["a"; "c"; "b"; "c"]) (VStr "c") ∧
  py_eq (VStr "c") (BirthCode.__init__ ["a"; "b"; "c"])
  = py_eq (VStr "c") (BirthCode.__init__ ["a"; "c"; "b"; "c"]).
Proof.
  apply (birth_code_class_set_semantics
           ["a"; "b"; "c"] ["a"; "c"; "b"; "c"] (VStr "c")).
  intros c. rewrite !elem_of_cons, elem_of_nil. tauto.
Defined.

(** X3: for every operand, [v == b] and [b == v] have the same outcome,
    be it True, False or a TypeError, when [b] is a BirthCode. *)
Theorem birth_code_class_symmetric cs v :
  py_eq v (VBirthCode cs) = py_eq (VBirthCode cs) v.
Proof. apply py_eq_birth_right. Qed.

(** X4: the equality is not transitive: two distinct codes of a BirthCode
    both equal it and do not equal each other. *)
Theorem birth_code_class_not_transitive codes c1 c2 :
  c1 ∈ codes → c2 ∈ codes → c1 ≠ c2 →
  py_eq (VStr c1) (BirthCode.__init__ codes) = Ok true ∧
  py_eq (BirthCode.__init__ codes) (VStr c2) = Ok true ∧
  py_eq (VStr c1) (VStr c2) = Ok false.
Proof.
  intros H1 H2 Hne. unfold BirthCode.__init__.
  rewrite py_eq_birth_right, !py_eq_birth_left, !birth_eq_str.
  rewrite !bool_decide_eq_true_2 by by apply elem_of_list_to_set.
  split; [done |]. split; [done |].
  unfold py_eq. simpl. by rewrite bool_decide_eq_false_2.
Qed.

Lemma birth_code_class_not_transitive_witness :
  py_eq (VStr "SNOMED/184099003") birth_code = Ok true ∧
  py_eq birth_code (VStr "SNOMED/3950001") = Ok true ∧
  py_eq (VStr "SNOMED/184099003") (VStr "SNOMED/3950001") = Ok false.
Proof.
  apply (birth_code_class_not_transitive
           ["SNOMED/184099003"; "SNOMED/3950001"]
           "SNOMED/184099003" "SNOMED/3950001").
  - left.
  - right. left.
  - discriminate.
Defined.

(** X5: with a BirthCode built from string codes, as [birth_code] is, a
    hashable operand that is not a string (None, a bool, an int, a tuple
    or a frozenset of these and of strings) compares False, from either
    side, and nothing is raised. *)
Theorem birth_code_class_other_hashable codes v :
  hashable v = true → is_str v = false →
  py_eq (BirthCode.__init__ codes) v = Ok false ∧
  py_eq v (BirthCode.__init__ codes) = Ok false.
Proof.
  intros Hh Hs. unfold BirthCode.__init__.
  rewrite py_eq_birth_right, py_eq_birth_left.
  unfold BirthCode.__eq__, set_contains. rewrite Hh.
  by destruct v as [[]| | | | | |].
Qed.

Lemma birth_code_class_other_hashable_witness :
  py_eq birth_code (VInt 184099003) = Ok false ∧
  py_eq (VInt 184099003) birth_code = Ok false.
Proof.
  exact (birth_code_class_other_hashable
           ["SNOMED/184099003"; "SNOMED/3950001"]
           (VInt 184099003) eq_refl eq_refl).
Defined.

(** X6: no string is both a birth code and the death code. *)
Theorem birth_death_disjoint c :
  ¬ (py_eq birth_code (VStr c) = Ok true ∧ py_eq death_code (VStr c) = Ok true).
Proof.
  rewrite birth_code_eq_str, ok_bool_decide_true.
  intros [[-> | ->] H]; discriminate H.
Qed.

End birth_code_class.

(** ** The patient schema as a whole *)

Section patient_schema_whole.

Implicit Types (arg : option pa.DataType) (t : pa.DataType).

(** X7: for every argument the schema has the three fields [patient_id]
    (int64), [static_measurements] (a list of Measurement structs) and
    [events] (a list of Event structs), in this order; an Event struct has
    the two fields [time] (timestamp in microseconds) and [measurements]
    (a list of Measurement structs); both lists hold the same Measurement
    struct. *)
Theorem patient_schema_shape arg :
  let measurement :=
    pa.StructType
      [ pa.field "code" pa.string true;
        pa.field "text_value" pa.string true;
        pa.field "numeric_value" pa.float32 true;
        pa.field "datetime_value" (pa.timestamp pa.unit_us) true;
        pa.field "metadata" (default pa.null arg) true ] in
  let event :=
    pa.StructType
      [ pa.field "time" (pa.timestamp pa.unit_us) true;
        pa.field "measurements" (pa.list_ measurement) true ] in
  pa.schema_fields (patient_schema arg)
  = [ pa.field "patient_id" pa.int64 true;
      pa.field "static_measurements" (pa.list_ measurement) true;
      pa.field "events" (pa.list_ event) true ] ∧
  event_type (patient_schema arg) = Some event ∧
  event_measurement_type (patient_schema arg)
  = static_measurement_type (patient_schema arg).
Proof. repeat split; reflexivity. Qed.

(** X8: two calls build the same schema exactly when their metadata types
    are the same, where an omitted argument counts as the null type: the
    schema determines the metadata type, and passing [pa.null()] is the
    same as passing nothing. *)
Theorem patient_schema_injective arg arg' :
  (patient_schema arg = patient_schema arg' ↔
     default pa.null arg = default pa.null arg') ∧
  patient_schema (Some pa.null) = patient_schema None.
Proof.
  split; [| reflexivity]. split.
  - intros H. apply (f_equal static_metadata_type) in H. by injection H.
  - unfold patient_schema. by intros ->.
Qed.

(** X9: the patient schema has a non-nullable field, at any depth, only
    if the metadata type brings one; the label schema has none. *)
Theorem patient_schema_all_nullable arg :
  schema_all_nullable (patient_schema arg)
  = all_nullable (default pa.null arg) ∧
  schema_all_nullable label = true.
Proof.
  split; [| reflexivity].
  unfold schema_all_nullable. simpl.
  by destruct (all_nullable (default pa.null arg)).
Qed.

Example non_nullable_metadata_detected :
  schema_all_nullable
    (patient_schema (Some (pa.StructType [pa.field "source" pa.string false])))
  = false.
Proof. reflexivity. Qed.

(** X10: in the patient schema, the Event struct, the Measurement struct
    and the label schema the field names are pairwise distinct, and a
    lookup by name gives back each field. *)
Theorem schema_field_lookup arg :
  let unambiguous fs :=
    NoDup (pa.name <$> fs) ∧
    Forall (λ f, pa.get_field fs (pa.name f) = Some f) fs in
  unambiguous (pa.schema_fields (patient_schema arg)) ∧
  unambiguous
    (pa.struct_fields (default pa.null (event_type (patient_schema arg)))) ∧
  unambiguous
    (pa.struct_fields
       (default pa.null (static_measurement_type (patient_schema arg)))) ∧
  unambiguous (pa.schema_fields label).
Proof.
  simpl. repeat split.
  all: try (apply (bool_decide_unpack _); vm_compute; exact I).
  all: repeat (apply Forall_cons_2; [reflexivity |]); apply Forall_nil_2.
Qed.

(** X11: the Patient and Label declarations agree with the columnar
    schemas, for every metadata type: same keys in the same order, and for
    each key the Python type of the values pyarrow yields for the column,
    through the nested Event and Measurement declarations. *)
Theorem declarations_agree_with_columns arg :
  hint_agrees (typing.Named "Patient")
    (pa.StructType (pa.schema_fields (patient_schema arg))) = true ∧
  hint_agrees (typing.Named "Label")
    (pa.StructType (pa.schema_fields label)) = true.
Proof.
  split; [| reflexivity].
  destruct arg as [t|]; [| reflexivity].
  destruct t; reflexivity.
Qed.

Example label_declaration_not_patient_schema :
  hint_agrees (typing.Named "Label")
    (pa.StructType (pa.schema_fields (patient_schema None))) = false.
Proof. reflexivity. Qed.

Example event_declaration_checks_types :
  hint_agrees (typing.Named "Event")
    (pa.struct [("time", pa.string); ("measurements", pa.list_ pa.null)])
  = false.
Proof. reflexivity. Qed.

End patient_schema_whole.

(** ** What the JSON Schemas accept *)

Section json_acceptance.

Implicit Types (k : string) (v doc : json) (ms : list (string * json)).

Ltac eval_here t :=
  let v := eval vm_compute in t in progress change t with v.

Lemma forallb_pointwise {A} (f g : A → bool) (l : list A) :
  (∀ x, f x = g x) → forallb f l = forallb g l.
Proof. intros H. induction l as [|x l IH]; [done |]. simpl. by rewrite H, IH. Qed.

Lemma forallb_weaken {A} (f g : A → bool) (l : list A) :
  (∀ x, f x = true → g x = true) → forallb f l = true → forallb g l = true.
Proof.
  intros H. induction l as [|x l IH]; [done |]. simpl.
  rewrite !andb_true_iff. intros [? ?]. split; auto.
Qed.

Lemma validate_string_schema v :
  validate (JObj [("type", JStr "string")]) v = is_jstr v.
Proof. by destruct v. Qed.

Lemma validate_string_array_schema v :
  validate (JObj [("type", JStr "array");
                  ("items", JObj [("type", JStr "string")])]) v
  = is_jstr_array v.
Proof.
  destruct v; try reflexivity.
  rewrite validate_obj_arr.
  eval_here (keyword (JObj [("type", JStr "array");
                            ("items", JObj [("type", JStr "string")])]) "items").
  cbv beta iota. simpl. apply forallb_pointwise, validate_string_schema.
Qed.

Lemma member_schema_entry k :
  member_schema code_metadata_entry k
  = if bool_decide (k = "description") then Some (JObj [("type", JStr "string")])
    else if bool_decide (k = "parent_codes")
    then Some (JObj [("type", JStr "array");
                     ("items", JObj [("type", JStr "string")])])
    else None.
Proof.
  unfold member_schema.
  eval_here (keyword code_metadata_entry "properties").
  eval_here (keyword code_metadata_entry "additionalProperties").
  unfold obj_get. simpl.
  repeat case_bool_decide; simplify_eq; done.
Qed.

Lemma validate_entry_accepts v : validate code_metadata_entry v = accepts_entry v.
Proof.
  destruct v as [| | | | |ms]; try reflexivity.
  unfold code_metadata_entry at 1. rewrite validate_obj_obj.
  fold code_metadata_entry.
  eval_here (type_ok code_metadata_entry (JObj ms)).
  change (required_ok code_metadata_entry ms) with true.
  cbn [andb]. apply forallb_pointwise. intros [k x].
  rewrite member_schema_entry. unfold accepts_entry_member. simpl.
  repeat case_bool_decide;
    auto using validate_string_schema, validate_string_array_schema.
Qed.

Lemma member_schema_code_metadata k :
  member_schema code_metadata k = Some code_metadata_entry.
Proof. reflexivity. Qed.

Lemma validate_code_metadata_accepts v :
  validate code_metadata v = accepts_code_metadata v.
Proof.
  destruct v as [| | | | |ms]; try reflexivity.
  unfold code_metadata at 1. rewrite validate_obj_obj. fold code_metadata.
  eval_here (type_ok code_metadata (JObj ms)).
  change (required_ok code_metadata ms) with true.
  cbn [andb]. apply forallb_pointwise. intros [k x].
  rewrite member_schema_code_metadata. apply validate_entry_accepts.
Qed.

Lemma member_schema_dataset k :
  member_schema dataset_metadata k
  = if bool_decide
         (k ∈ ["dataset_name"; "dataset_version"; "etl_name"; "etl_version"])
    then Some (JObj [("type", JStr "string")])
    else if bool_decide (k = "code_metadata") then Some code_metadata
    else None.
Proof.
  unfold member_schema.
  eval_here (keyword dataset_metadata "properties").
  eval_here (keyword dataset_metadata "additionalProperties").
  unfold obj_get. simpl.
  destruct (decide (k = "dataset_name")) as [-> | ?]; [done |].
  destruct (decide (k = "dataset_version")) as [-> | ?]; [done |].
  destruct (decide (k = "etl_name")) as [-> | ?]; [done |].
  destruct (decide (k = "etl_version")) as [-> | ?]; [done |].
  destruct (decide (k = "code_metadata")) as [-> | ?]; [done |].
  rewrite !(bool_decide_eq_false_2 (_ = k)) by congruence.
  rewrite (bool_decide_eq_false_2 (k ∈ _))
    by (rewrite !not_elem_of_cons; repeat split; try done; apply not_elem_of_nil).
  by rewrite bool_decide_eq_false_2.
Qed.

Lemma validate_dataset_accepts doc :
  validate dataset_metadata doc = accepts_dataset doc.
Proof.
  destruct doc as [| | | | |ms]; try reflexivity.
  unfold dataset_metadata at 1. rewrite validate_obj_obj. fold dataset_metadata.
  eval_here (type_ok dataset_metadata (JObj ms)).
  change (required_ok dataset_metadata ms) with true.
  cbn [andb]. apply forallb_pointwise. intros [k x].
  rewrite member_schema_dataset. unfold accepts_dataset_member. simpl.
  repeat case_bool_decide;
    auto using validate_string_schema, validate_code_metadata_accepts.
Qed.

(** X12: [dataset_metadata] accepts exactly the objects in which each of
    [dataset_name], [dataset_version], [etl_name] and [etl_version], when
    present, is a string and [code_metadata], when present, is accepted by
    [code_metadata]; [code_metadata] accepts exactly the objects all of
    whose values [code_metadata_entry] accepts; [code_metadata_entry]
    accepts exactly the objects whose [description], when present, is a
    string and whose [parent_codes], when present, is an array of
    strings.  Nothing that is not an object is accepted. *)
Theorem dataset_metadata_accepts_exactly doc :
  validate dataset_metadata doc = accepts_dataset doc ∧
  validate code_metadata doc = accepts_code_metadata doc ∧
  validate code_metadata_entry doc = accepts_entry doc.
Proof.
  split; [apply validate_dataset_accepts |].
  split; [apply validate_code_metadata_accepts | apply validate_entry_accepts].
Qed.

Example dataset_metadata_rejects_array :
  validate dataset_metadata (JArr []) = false.
Proof. reflexivity. Qed.

(** X13: a key that [dataset_metadata] does not name is unconstrained: a
    member under such a key, whatever its value, does not change whether a
    document is accepted. *)
Theorem dataset_metadata_unknown_key k v ms :
  k ∉ json_properties dataset_metadata →
  validate dataset_metadata (JObj ((k, v) :: ms))
  = validate dataset_metadata (JObj ms).
Proof.
  intros Hk. rewrite !validate_dataset_accepts. simpl.
  unfold accepts_dataset_member at 1. simpl.
  assert (Hp : json_properties dataset_metadata
               = ["dataset_name"; "dataset_version"; "etl_name"; "etl_version";
                  "code_metadata"]) by reflexivity.
  rewrite Hp in Hk.
  rewrite !not_elem_of_cons in Hk. destruct Hk as (?&?&?&?&?&_).
  rewrite bool_decide_eq_false_2
    by (rewrite !not_elem_of_cons; repeat split; try done; apply not_elem_of_nil).
  by rewrite bool_decide_eq_false_2.
Qed.

Lemma dataset_metadata_unknown_key_witness :
  validate dataset_metadata
    (JObj [("license", JNum 3); ("dataset_name", JStr "mimic")])
  = validate dataset_metadata (JObj [("dataset_name", JStr "mimic")]).
Proof.
  apply (dataset_metadata_unknown_key "license" (JNum 3)
           [("dataset_name", JStr "mimic")]).
  vm_compute json_properties.
  rewrite !not_elem_of_cons. repeat split; try discriminate.
  apply not_elem_of_nil.
Defined.

(** X14: every member of a dataset metadata document is optional: the
    members of an accepted document that a filter on keys keeps form an
    accepted document. *)
Theorem dataset_metadata_keep_members (keep : string → bool) ms :
  validate dataset_metadata (JObj ms) = true →
  validate dataset_metadata (JObj (filter (λ kv, keep kv.1 = true) ms)) = true.
Proof.
  rewrite !validate_dataset_accepts. simpl.
  rewrite !forallb_forall. intros H x Hx.
  apply H. apply list_elem_of_In. apply list_elem_of_In in Hx.
  by apply list_elem_of_filter in Hx as [_ ?].
Qed.

Lemma dataset_metadata_keep_members_witness :
  validate dataset_metadata
    (JObj (filter (λ kv, String.eqb kv.1 "etl_name" = true)
             [("dataset_name", JStr "mimic"); ("etl_name", JStr "meds_etl")]))
  = true.
Proof.
  apply (dataset_metadata_keep_members (λ k, String.eqb k "etl_name")
           [("dataset_name", JStr "mimic"); ("etl_name", JStr "meds_etl")]).
  reflexivity.
Defined.

End json_acceptance.

(** ** Typed documents against the JSON Schema *)

Section typed_json.

Implicit Types (k : string) (v doc : json) (ms : list (string * json)).

Lemma inhabits_str v : inhabits typing.str v = is_jstr v.
Proof. by destruct v. Qed.

Lemma inhabits_optional_str v :
  inhabits (typing.NotRequired typing.str) v = is_jstr v.
Proof. by destruct v. Qed.

Lemma inhabits_optional_code_metadata v :
  inhabits (typing.NotRequired CodeMetadata) v = inhabits CodeMetadata v.
Proof. by destruct v. Qed.

Lemma inhabits_list_str v :
  inhabits (typing.List typing.str) v = true → is_jstr_array v = true.
Proof.
  destruct v as [| | | |items|]; try done. simpl.
  apply forallb_weaken. intros x. by rewrite inhabits_str.
Qed.

Lemma td_lookup_entry k :
  td_lookup CodeMetadataEntry k
  = if bool_decide (k = "description") then Some typing.str
    else if bool_decide (k = "parent_codes") then Some (typing.List typing.str)
    else None.
Proof.
  unfold td_lookup. simpl.
  destruct (decide (k = "description")) as [-> | ?]; [done |].
  destruct (decide (k = "parent_codes")) as [-> | ?]; [done |].
  rewrite !(bool_decide_eq_false_2 (_ = k)) by congruence.
  by rewrite !bool_decide_eq_false_2.
Qed.

Lemma inhabits_entry_obj ms :
  inhabits (typing.Named "CodeMetadataEntry") (JObj ms)
  = forallb (λ k, bool_decide (k ∈ ms.*1)) ["description"; "parent_codes"] &&
    forallb (λ kv,
      match kv with
      | (k, v) =>
          match td_lookup CodeMetadataEntry k with
          | Some hk => inhabits hk v
          | None => false
          end
      end) ms.
Proof. reflexivity. Qed.

Lemma inhabits_entry_accepts v :
  inhabits (typing.Named "CodeMetadataEntry") v = true → accepts_entry v = true.
Proof.
  destruct v as [| | | | |ms]; try done.
  rewrite inhabits_entry_obj, andb_true_iff. intros [_ H]. simpl.
  revert H. apply forallb_weaken. intros [k x].
  rewrite td_lookup_entry. unfold accepts_entry_member. simpl.
  repeat case_bool_decide; try done.
  - by rewrite inhabits_str.
  - apply inhabits_list_str.
Qed.

Lemma inhabits_code_metadata_accepts v :
  inhabits CodeMetadata v = true → accepts_code_metadata v = true.
Proof.
  destruct v as [| | | | |ms]; try done. simpl.
  apply forallb_weaken. intros [k x]. apply inhabits_entry_accepts.
Qed.

Lemma td_lookup_dataset k :
  td_lookup DatasetMetadata k
  = if bool_decide
         (k ∈ ["dataset_name"; "dataset_version"; "etl_name"; "etl_version"])
    then Some (typing.NotRequired typing.str)
    else if bool_decide (k = "code_metadata")
    then Some (typing.NotRequired CodeMetadata)
    else None.
Proof.
  unfold td_lookup. simpl.
  destruct (decide (k = "dataset_name")) as [-> | ?]; [done |].
  destruct (decide (k = "dataset_version")) as [-> | ?]; [done |].
  destruct (decide (k = "etl_name")) as [-> | ?]; [done |].
  destruct (decide (k = "etl_version")) as [-> | ?]; [done |].
  destruct (decide (k = "code_metadata")) as [-> | ?]; [done |].
  rewrite !(bool_decide_eq_false_2 (_ = k)) by congruence.
  rewrite (bool_decide_eq_false_2 (k ∈ _))
    by (rewrite !not_elem_of_cons; repeat split; try done; apply not_elem_of_nil).
  by rewrite bool_decide_eq_false_2.
Qed.

Lemma inhabits_dataset_obj ms :
  inhabits (typing.Named "DatasetMetadata") (JObj ms)
  = forallb (λ kv,
      match kv with
      | (k, v) =>
          match td_lookup DatasetMetadata k with
          | Some hk => inhabits hk v
          | None => false
          end
      end) ms.
Proof. reflexivity. Qed.

Lemma inhabits_dataset_accepts doc :
  inhabits (typing.Named "DatasetMetadata") doc = true →
  accepts_dataset doc = true.
Proof.
  destruct doc as [| | | | |ms]; try done.
  rewrite inhabits_dataset_obj. simpl.
  apply forallb_weaken. intros [k x].
  rewrite td_lookup_dataset. unfold accepts_dataset_member. simpl.
  repeat case_bool_decide; try done.
  - by rewrite inhabits_optional_str.
  - rewrite inhabits_optional_code_metadata.
    apply inhabits_code_metadata_accepts.
Qed.

(** X15: a document that has the type [DatasetMetadata] is accepted by
    the [dataset_metadata] JSON Schema. *)
Theorem dataset_metadata_typed_documents_valid doc :
  inhabits (typing.Named "DatasetMetadata") doc = true →
  validate dataset_metadata doc = true.
Proof.
  rewrite validate_dataset_accepts. apply inhabits_dataset_accepts.
Qed.

Lemma dataset_metadata_typed_documents_valid_witness :
  validate dataset_metadata
    (JObj [ ("dataset_name", JStr "mimic");
            ("code_metadata",
              JObj [ ("SNOMED/3950001",
                       JObj [ ("description", JStr "Birth");
                              ("parent_codes",
                                JArr [JStr "SNOMED/184099003"]) ]) ]) ])
  = true.
Proof.
  apply dataset_metadata_typed_documents_valid. reflexivity.
Defined.

(** X16: the JSON Schema accepts more than the declarations type: for
    every code [k], the document whose [code_metadata] has an empty entry
    under [k] is accepted by [dataset_metadata] and does not have the type
    [DatasetMetadata], its entry lacking the keys [CodeMetadataEntry]
    requires. *)
Theorem dataset_metadata_schema_more_permissive k :
  let doc := JObj [("code_metadata", JObj [(k, JObj [])])] in
  validate dataset_metadata doc = true ∧
  inhabits (typing.Named "DatasetMetadata") doc = false ∧
  inhabits (typing.Named "CodeMetadataEntry") (JObj []) = false.
Proof. repeat split; reflexivity. Qed.

End typed_json.
